(** * A movie and comment service: handlers over a relational store

    Shallow embedding of [main.py], [models.py] and [schemas.py].

    What lies outside the repository is kept explicit:
    - the metadata provider is a function from the queried title to its
      reply ([omdb] of [Env]);
    - the storage engine keeps one table per model, keyed by the primary key.
      What differs from one engine to the other is a setting of the
      deployment: whether the FOREIGN KEY clause of [Comment.movie_id] is
      checked ([foreign_keys] of [Env]), which integers the driver passes
      as a query parameter ([binds]) and which an [Integer] column takes
      ([holds]).  The length of a [String(n)] column is not checked, as on
      the engine of [tests.py];
    - of the interpreter, the text it gives an exception, [str(e)], is
      [str] of [Env]; what it makes of a numeric literal that is not ASCII
      is [to_ascii], and its limit on the digits of a literal is
      [int_max_str_digits].

    Request bodies and query parameters are the values the framework hands
    to the handler once it has validated them against [schemas.py]. *)

From Stdlib Require Import ZArith String Ascii List Lia Bool.
From stdpp Require Import base option list strings gmap fin_maps.

Set Warnings "-register-all".
Local Open Scope Z_scope.
Local Open Scope string_scope.

(** ** JSON values, as far as the handlers build them *)

Inductive json : Type :=
  | JNull
  | JInt (n : Z)
  | JStr (s : string)
  | JArr (items : list json)
  | JObj (fields : list (string * json)).

(** [d.get(k)] on a dict literal, kept as the list of its items. *)
Fixpoint get (k : string) (d : list (string * json)) : option json :=
  match d with
  | [] => None
  | (k', v) :: d' => if String.eqb k k' then Some v else get k d'
  end.

(** [JSONResponse(status_code=..., content={...})]. *)
Record Response : Type := JSONResponse {
  status_code : Z;
  content : list (string * json)
}.

(** ** Exceptions and the handler monad *)

Inductive exn : Type :=
  | RequestError (detail : string)      (* httpx.get or response.json() *)
  | KeyError (key : string)             (* data[key] *)
  | ValueError (literal : string)       (* int(literal) *)
  | IntegrityError (table : string)     (* the engine refuses a flush *)
  | OutOfRange (n : Z)                  (* an integer the engine cannot take *)
  | ValidationError (fields : list string). (* MovieResponse.from_orm *)

(** ** models.py *)

Module models.

(** A row of [movies]; the primary key [id] is the key of the table. *)
Record Movie : Type := {
  title : string;
  genre : option string;
  year : option Z
}.

(** A row of [comments]. *)
Record Comment : Type := {
  movie_id : option Z;
  comment : option string
}.

End models.

(** ** schemas.py *)

Module schemas.

Record MovieCreate : Type := {
  title : string;
  genre : option string;
  year : option Z
}.

Record MovieResponse : Type := {
  id : Z;
  r_title : string;
  r_genre : string;
  r_year : Z
}.

Record CommentCreate : Type := {
  comment : string;
  movie_id : Z
}.

Record CommentUpdate : Type := {
  u_comment : option string
}.

End schemas.

(** ** The store and the session *)

Record DB : Type := {
  movies : gmap Z models.Movie;
  comments : gmap Z models.Comment
}.

(** The reply of the metadata provider to [httpx.get(...)] followed by
    [response.json()]: either call raises, or a JSON object comes back.
    The provider serialises every field the handler reads as a string. *)
Inductive reply : Type :=
  | Raises (e : exn)
  | Payload (data : gmap string string).

(** The deployment.  [binds n]: the driver passes [n] as the parameter of
    a query (the SQLite driver of [tests.py] passes 64-bit integers and
    raises on any other).  [holds n]: an [Integer] column takes [n] on
    insert and update.  [to_ascii] is what the interpreter turns a literal
    that is not ASCII into before [int] reads it (decimal digits of other
    scripts become ASCII digits, other blanks become spaces);
    [int_max_str_digits] is its limit on the digits of such a literal, 0
    for none. *)
Record Env : Type := {
  omdb : string -> reply;
  foreign_keys : bool;
  binds : Z -> bool;
  holds : Z -> bool;
  to_ascii : string -> string;
  int_max_str_digits : nat;
  str : exn -> string
}.

(** A computation inside a handler's [try]: it reads and commits to the
    store, and returns or raises.  Every handler commits right after each
    change, and a session that is closed drops what was not committed, so
    the state is the committed store. *)
Definition M (A : Type) : Type := DB -> (exn + A) * DB.

Definition ret {A} (a : A) : M A := fun db => (inr a, db).
Definition raise {A} (e : exn) : M A := fun db => (inl e, db).
Definition bind {A B} (m : M A) (k : A -> M B) : M B :=
  fun db => match m db with
            | (inl e, db') => (inl e, db')
            | (inr a, db') => k a db'
            end.

Notation "x <- m ;; k" := (bind m (fun x => k))
  (at level 100, m at next level, right associativity).
Notation "m ;;; k" := (bind m (fun _ => k))
  (at level 100, right associativity).

Definition lift {A} (r : exn + A) : M A := fun db => (r, db).
Definition query {A} (f : DB -> A) : M A := fun db => (inr (f db), db).

(** ** Python's [int] on a string, base ten

    Blanks are stripped on both sides, one sign may lead, and the digits may
    be grouped by single underscores.  Anything else raises [ValueError],
    and so does a literal of more digits than the interpreter allows.  A
    literal that is not ASCII is first turned into one by [to_ascii]. *)

Definition is_space (c : ascii) : bool :=
  let n := nat_of_ascii c in
  ((9 <=? n) && (n <=? 13) || (n =? 32))%nat.

Definition digit_of (c : ascii) : option Z :=
  let n := nat_of_ascii c in
  if ((48 <=? n) && (n <=? 57))%nat then Some (Z.of_nat n - 48) else None.

Definition is_underscore (c : ascii) : bool := Ascii.eqb c "_".

Definition chars (s : string) : list ascii := list_ascii_of_string s.

Fixpoint lstrip (l : list ascii) : list ascii :=
  match l with
  | c :: l' => if is_space c then lstrip l' else l
  | [] => []
  end.

Definition strip (l : list ascii) : list ascii :=
  rev (lstrip (rev (lstrip l))).

(** [digits acc l]: [l] continues a literal whose value so far is [acc] and
    whose last character was a digit. *)
Fixpoint digits (acc : Z) (l : list ascii) : option Z :=
  match l with
  | [] => Some acc
  | c :: l' =>
      match digit_of c with
      | Some d => digits (10 * acc + d) l'
      | None =>
          if is_underscore c then
            match l' with
            | c' :: l'' =>
                match digit_of c' with
                | Some d => digits (10 * acc + d) l''
                | None => None
                end
            | [] => None
            end
          else None
      end
  end.

Definition unsigned (l : list ascii) : option Z :=
  match l with
  | c :: l' => match digit_of c with
               | Some d => digits d l'
               | None => None
               end
  | [] => None
  end.

Definition is_ascii (s : string) : bool :=
  forallb (fun c => (nat_of_ascii c <? 128)%nat) (chars s).

(** The digits of a literal, underscores and sign left out. *)
Definition count_digits (l : list ascii) : nat :=
  length (List.filter (fun c => bool_decide (is_Some (digit_of c))) l).

(** The limit applies from 641 digits on, and only when it is set. *)
Definition over_limit (env : Env) (l : list ascii) : bool :=
  let n := count_digits l in
  ((640 <? n) && (0 <? int_max_str_digits env)
   && (int_max_str_digits env <? n))%nat.

Definition int (env : Env) (s : string) : exn + Z :=
  let text := chars (if is_ascii s then s else to_ascii env s) in
  let parsed :=
    match strip text with
    | c :: l' =>
        if Ascii.eqb c "-" then Z.opp <$> unsigned l'
        else if Ascii.eqb c "+" then unsigned l'
        else unsigned (c :: l')
    | [] => None
    end in
  match parsed with
  | Some n => if over_limit env text then inl (ValueError s) else inr n
  | None => inl (ValueError s)
  end.

(** ** The LIKE operator of the engine

    [%] stands for any run of characters and [_] for any one character, a
    character being a byte and the continuation bytes that follow it.
    [ilike] compares the two sides in lower case (ASCII letters). *)

Definition is_continuation (c : ascii) : bool :=
  let n := nat_of_ascii c in
  ((128 <=? n) && (n <=? 191))%nat.

Fixpoint skip_continuation (t : list ascii) : list ascii :=
  match t with
  | c :: t' => if is_continuation c then skip_continuation t' else t
  | [] => []
  end.

Definition is_percent (c : ascii) : bool := Ascii.eqb c "%".

(** [any_suffix f t]: [f] holds of [t] or of what is left of [t] once some
    of its first characters are dropped. *)
Fixpoint any_suffix (f : list ascii -> bool) (t : list ascii) : bool :=
  f t || match t with
         | [] => false
         | _ :: t' => any_suffix f t'
         end.

Fixpoint like (p t : list ascii) : bool :=
  match p with
  | [] => match t with [] => true | _ :: _ => false end
  | c :: p' =>
      if is_percent c then any_suffix (like p') t
      else
        match t with
        | [] => false
        | d :: t' =>
            if is_underscore c then like p' (skip_continuation t')
            else Ascii.eqb c d && like p' t'
        end
  end.

Definition lower_char (c : ascii) : ascii :=
  let n := nat_of_ascii c in
  if ((65 <=? n) && (n <=? 90))%nat then ascii_of_nat (n + 32) else c.

Definition lower (s : string) : list ascii := map lower_char (chars s).

(** [column.ilike(pattern)]; a NULL column matches nothing. *)
Definition ilike (column : option string) (pattern : string) : bool :=
  match column with
  | Some v => like (lower pattern) (lower v)
  | None => false
  end.

(** ** Tables and the session's operations *)

(** The key the engine gives a new row: one it does not hold yet, here one
    more than the largest key of the table. *)
Definition next_id {A} (t : gmap Z A) : Z :=
  1 + map_fold (fun k _ acc => Z.max k acc) 0 t.

(** [db.query(Movie).filter(Movie.id == movie_id).first()]: the row under
    the id, or None; for an id the driver cannot bind, which is the key of
    no row an engine stores, the query raises. *)
Definition first_movie (env : Env) (movie_id : Z) : M (option models.Movie) :=
  fun db =>
    match movies db !! movie_id with
    | Some movie => (inr (Some movie), db)
    | None =>
        if binds env movie_id then (inr None, db)
        else (inl (OutOfRange movie_id), db)
    end.

(** [db.query(Comment).filter(Comment.id == comment_id).first()]. *)
Definition first_comment (env : Env) (comment_id : Z)
  : M (option models.Comment) :=
  fun db =>
    match comments db !! comment_id with
    | Some comment => (inr (Some comment), db)
    | None =>
        if binds env comment_id then (inr None, db)
        else (inl (OutOfRange comment_id), db)
    end.

(** A value for an [Integer] column: NULL, or an integer the column
    takes. *)
Definition fits (env : Env) (value : option Z) : exn + unit :=
  match value with
  | Some n => if holds env n then inr tt else inl (OutOfRange n)
  | None => inr tt
  end.

(** [db.add(new_movie); db.commit(); db.refresh(new_movie)], giving
    [new_movie.id]; the commit raises, and writes nothing, when the column
    does not take the year. *)
Definition add_movie (env : Env) (m : models.Movie) : M Z :=
  fun db =>
    match fits env (models.year m) with
    | inl e => (inl e, db)
    | inr _ =>
        let i := next_id (movies db) in
        (inr i, {| movies := <[i := m]> (movies db); comments := comments db |})
    end.

(** The FOREIGN KEY clause of [Comment.movie_id]: NULL, or the key of a row
    of [movies]. *)
Definition references (db : DB) (c : models.Comment) : bool :=
  match models.movie_id c with
  | Some m => bool_decide (is_Some (movies db !! m))
  | None => true
  end.

(** [db.add(comment); db.commit(); db.refresh(comment)], giving
    [comment.id]; the commit raises, and writes nothing, when the column
    does not take the [movie_id], and an engine that checks foreign keys
    refuses the row when its [movie_id] refers to no movie. *)
Definition add_comment (env : Env) (c : models.Comment) : M Z :=
  fun db =>
    match fits env (models.movie_id c) with
    | inl e => (inl e, db)
    | inr _ =>
        if foreign_keys env && negb (references db c)
        then (inl (IntegrityError "comments"), db)
        else
          let i := next_id (comments db) in
          (inr i, {| movies := movies db; comments := <[i := c]> (comments db) |})
    end.

(** [db.commit(); db.refresh(movie)] after the attributes of the row loaded
    under [movie_id] were set; the commit raises, and the row stays as it
    was, when the column does not take the year. *)
Definition save_movie (env : Env) (movie_id : Z) (m : models.Movie)
  : M models.Movie :=
  fun db =>
    match fits env (models.year m) with
    | inl e => (inl e, db)
    | inr _ =>
        (inr m, {| movies := <[movie_id := m]> (movies db); comments := comments db |})
    end.

(** [query.all()] with an integer filter in force: the driver has to bind
    the filter, and raises when it cannot. *)
Definition bind_filter (env : Env) (in_force : bool) (value : option Z)
  : M unit :=
  match value with
  | Some n =>
      if in_force && negb (binds env n) then raise (OutOfRange n) else ret tt
  | None => ret tt
  end.

(** The same for a comment; only [comment] is ever set, so the foreign key
    is not looked at again. *)
Definition save_comment (comment_id : Z) (c : models.Comment)
  : M models.Comment :=
  fun db =>
    (inr c, {| movies := movies db; comments := <[comment_id := c]> (comments db) |}).

(** [db.delete(movie); db.commit()]: the relationship [Movie.comments]
    cascades, so the comments of the movie go with it. *)
Definition delete_movie_row (movie_id : Z) : M unit :=
  fun db =>
    (inr tt,
     {| movies := delete movie_id (movies db);
        comments := filter (fun kc => models.movie_id kc.2 <> Some movie_id)
                           (comments db) |}).

(** [db.delete(comment); db.commit()]. *)
Definition delete_comment_row (comment_id : Z) : M unit :=
  fun db =>
    (inr tt, {| movies := movies db; comments := delete comment_id (comments db) |}).

(** [data[key]] on the provider's payload. *)
Definition getitem (data : gmap string string) (key : string) : M string :=
  match data !! key with
  | Some v => ret v
  | None => raise (KeyError key)
  end.

(** Truth value of an optional query parameter in [if genre:] and
    [if year:]: absent, empty and zero are all false. *)
Definition truthy_str (p : option string) : bool :=
  match p with
  | Some s => negb (String.eqb s EmptyString)
  | None => false
  end.

Definition truthy_int (p : option Z) : bool :=
  match p with
  | Some n => negb (Z.eqb n 0)
  | None => false
  end.

Definition json_opt {A} (f : A -> json) (o : option A) : json :=
  match o with
  | Some a => f a
  | None => JNull
  end.

(** [MovieResponse.from_orm(movie)]: [genre] and [year] are required
    there, although the column and [MovieCreate] allow None. *)
Definition from_orm (movie_id : Z) (m : models.Movie)
  : exn + schemas.MovieResponse :=
  match models.genre m, models.year m with
  | Some g, Some y =>
      inr {| schemas.id := movie_id; schemas.r_title := models.title m;
             schemas.r_genre := g; schemas.r_year := y |}
  | None, Some _ => inl (ValidationError ["genre"])
  | Some _, None => inl (ValidationError ["year"])
  | None, None => inl (ValidationError ["genre"; "year"])
  end.

(** [MovieResponse.dict()]. *)
Definition dict (r : schemas.MovieResponse) : json :=
  JObj [("id", JInt (schemas.id r)); ("title", JStr (schemas.r_title r));
        ("genre", JStr (schemas.r_genre r)); ("year", JInt (schemas.r_year r))].

(** ** main.py *)

Definition STATUS_SUCCESS : string := "success".
Definition STATUS_FAILED : string := "fail".

(** A handler takes the store a request finds to its response and the
    store it leaves. *)
Definition handler : Type := DB -> Response * DB.

(** [try: body / except Exception as e: return JSONResponse(400, ...)],
    the frame every handler has.  For a handler [f], [f_try] is the block
    under its [try]. *)
Definition try_except (env : Env) (body : M Response) : handler :=
  fun db =>
    match body db with
    | (inr r, db') => (r, db')
    | (inl e, db') =>
        (JSONResponse 400 [("status", JStr STATUS_FAILED);
                           ("message", JStr (str env e))], db')
    end.

Definition create_movie_try (env : Env) (movie_title : string)
  : M Response :=
  data <- lift (match omdb env movie_title with
                | Raises e => inl e
                | Payload data => inr data
                end) ;;
  if bool_decide (data !! "Response" = Some "False") then
    ret (JSONResponse 404 [("status", JStr STATUS_FAILED);
                           ("message", JStr "Movie not found");
                           ("data", JNull)])
  else
    title <- getitem data "Title" ;;
    genre <- getitem data "Genre" ;;
    year <- getitem data "Year" ;;
    year <- lift (int env year) ;;
    new_movie_id <- add_movie env {| models.title := title;
                                 models.genre := Some genre;
                                 models.year := Some year |} ;;
    ret (JSONResponse 200 [("status", JStr STATUS_SUCCESS);
                           ("message", JStr "Added movie successfully !!");
                           ("data", JObj [("id", JInt new_movie_id)])]).

Definition create_movie (env : Env) (movie_title : string)
  : handler :=
  try_except env (create_movie_try env movie_title).

(** The rows [read_movies] selects, in the order the engine lists them. *)
Definition select_movies (genre : option string) (year : option Z)
    (rows : list (Z * models.Movie)) : list (Z * models.Movie) :=
  let query := rows in
  let query :=
    if truthy_str genre
    then List.filter
           (fun r => ilike (models.genre r.2)
                           ("%" +:+ default EmptyString genre +:+ "%")) query
    else query in
  let query :=
    if truthy_int year
    then List.filter (fun r => bool_decide (models.year r.2 = year)) query
    else query in
  query.

Definition movie_item (r : Z * models.Movie) : json :=
  JObj [("id", JInt r.1);
        ("title", JStr (models.title r.2));
        ("genre", json_opt JStr (models.genre r.2));
        ("year", json_opt JInt (models.year r.2))].

Definition read_movies_try (env : Env) (genre : option string) (year : option Z)
  : M Response :=
  bind_filter env (truthy_int year) year ;;;
  movies <- query (fun db => select_movies genre year (map_to_list (movies db))) ;;
  let mapped_data := map movie_item movies in
  ret (JSONResponse 200 [("status", JStr STATUS_SUCCESS);
                         ("message", JStr "Get movies list successfully!");
                         ("data", JArr mapped_data)]).

Definition read_movies (env : Env) (genre : option string) (year : option Z)
  : handler :=
  try_except env (read_movies_try env genre year).

(** [for key, value in movie_data.dict().items(): setattr(movie, key, value)]:
    the three fields of [MovieCreate], each set on the row. *)
Definition set_movie (movie_data : schemas.MovieCreate) (movie : models.Movie)
  : models.Movie :=
  {| models.title := schemas.title movie_data;
     models.genre := schemas.genre movie_data;
     models.year := schemas.year movie_data |}.

Definition update_movie_try (env : Env) (movie_id : Z) (movie_data : schemas.MovieCreate)
  : M Response :=
  movie <- first_movie env movie_id ;;
  match movie with
  | None =>
      ret (JSONResponse 404 [("status", JStr STATUS_FAILED);
                             ("message", JStr "Movie not found")])
  | Some movie =>
      movie <- save_movie env movie_id (set_movie movie_data movie) ;;
      data <- lift (from_orm movie_id movie) ;;
      ret (JSONResponse 200 [("status", JStr STATUS_SUCCESS);
                             ("message", JStr "Update movie detail successfully!");
                             ("data", dict data)])
  end.

Definition update_movie (env : Env) (movie_id : Z) (movie_data : schemas.MovieCreate)
  : handler :=
  try_except env (update_movie_try env movie_id movie_data).

Definition delete_movie_try (env : Env) (movie_id : Z)
  : M Response :=
  movie <- first_movie env movie_id ;;
  match movie with
  | None =>
      ret (JSONResponse 404 [("status", JStr STATUS_FAILED);
                             ("message", JStr "Movie detail not found")])
  | Some _ =>
      delete_movie_row movie_id ;;;
      ret (JSONResponse 200 [("status", JStr STATUS_SUCCESS);
                             ("message", JStr "Delete movie detail successfully !!")])
  end.

Definition delete_movie (env : Env) (movie_id : Z)
  : handler :=
  try_except env (delete_movie_try env movie_id).

Definition create_comment_try (env : Env) (comment : schemas.CommentCreate)
  : M Response :=
  comment_id <- add_comment env
                  {| models.movie_id := Some (schemas.movie_id comment);
                     models.comment := Some (schemas.comment comment) |} ;;
  ret (JSONResponse 200 [("status", JStr STATUS_SUCCESS);
                         ("message", JStr "Added movie comment successfully !!");
                         ("data", JObj [("id", JInt comment_id)])]).

Definition create_comment (env : Env) (comment : schemas.CommentCreate)
  : handler :=
  try_except env (create_comment_try env comment).

Definition select_comments (comment : option string) (movie_id : option Z)
    (rows : list (Z * models.Comment)) : list (Z * models.Comment) :=
  let query := rows in
  let query :=
    if truthy_str comment
    then List.filter
           (fun r => ilike (models.comment r.2)
                           ("%" +:+ default EmptyString comment +:+ "%")) query
    else query in
  let query :=
    if truthy_int movie_id
    then List.filter (fun r => bool_decide (models.movie_id r.2 = movie_id)) query
    else query in
  query.

Definition comment_item (r : Z * models.Comment) : json :=
  JObj [("id", JInt r.1);
        ("comment", json_opt JStr (models.comment r.2));
        ("movie_id", json_opt JInt (models.movie_id r.2))].

Definition read_comments_try (env : Env) (comment : option string) (movie_id : option Z)
  : M Response :=
  bind_filter env (truthy_int movie_id) movie_id ;;;
  comments <- query (fun db => select_comments comment movie_id
                                 (map_to_list (comments db))) ;;
  let mapped_data := map comment_item comments in
  ret (JSONResponse 200 [("status", JStr STATUS_SUCCESS);
                         ("message", JStr "Get comments list successfully!");
                         ("data", JArr mapped_data)]).

Definition read_comments (env : Env) (comment : option string) (movie_id : option Z)
  : handler :=
  try_except env (read_comments_try env comment movie_id).

(** [for key, value in comment_data.dict().items(): setattr(comment, key, value)]:
    [CommentUpdate] has the one field [comment]. *)
Definition set_comment (comment_data : schemas.CommentUpdate)
    (comment : models.Comment) : models.Comment :=
  {| models.movie_id := models.movie_id comment;
     models.comment := schemas.u_comment comment_data |}.

Definition update_comment_try (env : Env) (comment_id : Z) (comment_data : schemas.CommentUpdate)
  : M Response :=
  comment <- first_comment env comment_id ;;
  match comment with
  | None =>
      ret (JSONResponse 404 [("status", JStr STATUS_FAILED);
                             ("message", JStr "Comment not found")])
  | Some comment =>
      comment <- save_comment comment_id (set_comment comment_data comment) ;;
      ret (JSONResponse 200 [("status", JStr STATUS_SUCCESS);
                             ("message", JStr "Update comment successfully!");
                             ("data", comment_item (comment_id, comment))])
  end.

Definition update_comment (env : Env) (comment_id : Z) (comment_data : schemas.CommentUpdate)
  : handler :=
  try_except env (update_comment_try env comment_id comment_data).

Definition delete_comment_try (env : Env) (comment_id : Z)
  : M Response :=
  comment <- first_comment env comment_id ;;
  match comment with
  | None =>
      ret (JSONResponse 404 [("status", JStr STATUS_FAILED);
                             ("message", JStr "comment detail not found")])
  | Some _ =>
      delete_comment_row comment_id ;;;
      ret (JSONResponse 200 [("status", JStr STATUS_SUCCESS);
                             ("message", JStr "Delete comment detail successfully !!")])
  end.

Definition delete_comment (env : Env) (comment_id : Z)
  : handler :=
  try_except env (delete_comment_try env comment_id).

(** The requests of the eight routes, and the service as one step from a
    request and a store to a response and a store. *)
Inductive request : Type :=
  | PostMovies (movie_title : string)
  | GetMovies (genre : option string) (year : option Z)
  | PutMovies (movie_id : Z) (movie_data : schemas.MovieCreate)
  | DeleteMovies (movie_id : Z)
  | PostComments (comment : schemas.CommentCreate)
  | GetComments (comment : option string) (movie_id : option Z)
  | PutComments (comment_id : Z) (comment_data : schemas.CommentUpdate)
  | DeleteComments (comment_id : Z).

Definition app_try (env : Env) (rq : request) : M Response :=
  match rq with
  | PostMovies movie_title => create_movie_try env movie_title
  | GetMovies genre year => read_movies_try env genre year
  | PutMovies movie_id movie_data => update_movie_try env movie_id movie_data
  | DeleteMovies movie_id => delete_movie_try env movie_id
  | PostComments comment => create_comment_try env comment
  | GetComments comment movie_id => read_comments_try env comment movie_id
  | PutComments comment_id comment_data => update_comment_try env comment_id comment_data
  | DeleteComments comment_id => delete_comment_try env comment_id
  end.

Definition app (env : Env) (rq : request) : handler :=
  match rq with
  | PostMovies movie_title => create_movie env movie_title
  | GetMovies genre year => read_movies env genre year
  | PutMovies movie_id movie_data => update_movie env movie_id movie_data
  | DeleteMovies movie_id => delete_movie env movie_id
  | PostComments comment => create_comment env comment
  | GetComments comment movie_id => read_comments env comment movie_id
  | PutComments comment_id comment_data => update_comment env comment_id comment_data
  | DeleteComments comment_id => delete_comment env comment_id
  end.

(** ** Notions the statements use *)

(** The provider resolves a title as found: its payload does not say
    ["Response": "False"] and carries the canonical title, the genre and a
    year that [int] reads. *)
Definition found (env : Env) (r : reply) (title genre : string) (year : Z)
  : Prop :=
  exists data literal,
    r = Payload data /\
    data !! "Response" <> Some "False" /\
    data !! "Title" = Some title /\
    data !! "Genre" = Some genre /\
    data !! "Year" = Some literal /\
    int env literal = inr year.


(** The provider reports the title as not found. *)
Definition not_found (r : reply) : Prop :=
  exists data, r = Payload data /\ data !! "Response" = Some "False".

(** An update or a delete whose id is the key of no row. *)
Definition targets_missing (rq : request) (db : DB) : Prop :=
  match rq with
  | PutMovies movie_id _ | DeleteMovies movie_id => movies db !! movie_id = None
  | PutComments comment_id _ | DeleteComments comment_id =>
      comments db !! comment_id = None
  | PostMovies _ | GetMovies _ _ | PostComments _ | GetComments _ _ => False
  end.

(** The id of an update or a delete is one the driver can bind. *)
Definition target_binds (env : Env) (rq : request) : Prop :=
  match rq with
  | PutMovies i _ | DeleteMovies i | PutComments i _ | DeleteComments i =>
      binds env i = true
  | PostMovies _ | GetMovies _ _ | PostComments _ | GetComments _ _ => True
  end.

(** The request is answered 404 with status fail and the store is left as
    it was. *)
Definition answers_not_found (env : Env) (rq : request) (db : DB) : Prop :=
  exists response,
    app env rq db = (response, db) /\
    status_code response = 404 /\
    get "status" (content response) = Some (JStr "fail").



(** [part] occurs in [text]. *)
Definition contains (text part : list ascii) : Prop :=
  exists before after : list ascii, text = (before ++ part ++ after)%list.

(** The filters of the movie list as the specification words them: the
    genre holds the filter as a substring, letter case ignored, and the
    year equals the filter; a filter left out asks nothing. *)
Definition genre_matches (genre : option string) (m : models.Movie) : Prop :=
  match genre with
  | Some g => exists v, models.genre m = Some v /\ contains (lower v) (lower g)
  | None => True
  end.

Definition year_matches (year : option Z) (m : models.Movie) : Prop :=
  match year with
  | Some y => models.year m = Some y
  | None => True
  end.

(** The response lists, each once and in the shape of [movie_item], the
    rows of [movies] that satisfy both filters, and only those. *)
Definition lists_matching (genre : option string) (year : option Z)
    (db : DB) (response : Response) : Prop :=
  exists rows : list (Z * models.Movie),
    response =
      JSONResponse 200 [("status", JStr "success");
                        ("message", JStr "Get movies list successfully!");
                        ("data", JArr (map movie_item rows))] /\
    NoDup rows /\
    forall k m, (k, m) ∈ rows <->
                movies db !! k = Some m /\ genre_matches genre m /\ year_matches year m.

(** The store after [update_movie] has set the three fields on a row. *)
Definition overwritten (movie_id : Z) (movie_data : schemas.MovieCreate)
    (db : DB) : DB :=
  {| movies := <[movie_id := {| models.title := schemas.title movie_data;
                                models.genre := schemas.genre movie_data;
                                models.year := schemas.year movie_data |}]>
                 (movies db);
     comments := comments db |}.

(** [create_comment] inserts the comment under a new key and reports it. *)
Definition inserts_comment (env : Env) (comment : schemas.CommentCreate)
    (db : DB) : Prop :=
  let new_id := next_id (comments db) in
  comments db !! new_id = None /\
  create_comment env comment db =
    (JSONResponse 200 [("status", JStr "success");
                       ("message", JStr "Added movie comment successfully !!");
                       ("data", JObj [("id", JInt new_id)])],
     {| movies := movies db;
        comments := <[new_id := {| models.movie_id := Some (schemas.movie_id comment);
                                   models.comment := Some (schemas.comment comment) |}]>
                      (comments db) |}).

(** What may stand under ["data"]: an object, an array or null. *)
Definition is_data (j : json) : Prop :=
  match j with
  | JObj _ | JArr _ | JNull => True
  | JInt _ | JStr _ => False
  end.

Definition has_status_and_message (response : Response) : Prop :=
  (exists s, get "status" (content response) = Some (JStr s) /\
             (s = "success" \/ s = "fail")) /\
  (exists m, get "message" (content response) = Some (JStr m)).

(** The envelope with its three keys. *)
Definition envelope (response : Response) : Prop :=
  has_status_and_message response /\
  (exists d, get "data" (content response) = Some d /\ is_data d).

(** The envelope in which ["data"] may be left out. *)
Definition envelope_data_optional (response : Response) : Prop :=
  has_status_and_message response /\
  (forall d, get "data" (content response) = Some d -> is_data d).

(** The three status codes and the status that goes with each. *)
Definition code_and_status (response : Response) : Prop :=
  let status := get "status" (content response) in
  (status_code response = 200 /\ status = Some (JStr "success")) \/
  (status_code response = 404 /\ status = Some (JStr "fail")) \/
  (status_code response = 400 /\ status = Some (JStr "fail")).

(** Where a response has a ["data"] key: on the 200 of a create, a list or
    an update, and on the 404 of [create_movie]. *)
Definition data_expected (rq : request) (response : Response) : Prop :=
  match rq with
  | PostMovies _ => status_code response = 200 \/ status_code response = 404
  | GetMovies _ _ | PutMovies _ _ | PostComments _ | GetComments _ _
  | PutComments _ _ => status_code response = 200
  | DeleteMovies _ | DeleteComments _ => False
  end.

(** The not-found conditions: the provider does not know the title, or an
    update or delete names an id no row has. *)
Definition not_found_condition (env : Env) (rq : request) (db : DB) : Prop :=
  match rq with
  | PostMovies movie_title => not_found (omdb env movie_title)
  | _ => targets_missing rq db
  end.

(** Stores and settings the examples run on. *)
Definition inception : models.Movie :=
  {| models.title := "Inception";
     models.genre := Some "Sci-Fi";
     models.year := Some 2010 |}.

Definition great_movie : models.Comment :=
  {| models.movie_id := Some 1; models.comment := Some "Great movie!" |}.

Definition empty_db : DB := {| movies := ∅; comments := ∅ |}.

Definition one_movie : DB :=
  {| movies := {[ 1 := inception ]}; comments := {[ 1 := great_movie ]} |}.

Definition omdb_stub (movie_title : string) : reply :=
  if String.eqb movie_title "Inception"
  then Payload (list_to_map [("Title", "Inception");
                             ("Year", "2010");
                             ("Genre", "Action, Adventure, Sci-Fi");
                             ("Response", "True")])
  else Payload (list_to_map [("Response", "False");
                             ("Error", "Movie not found!")]).

(** In the examples an exception is rendered by the name of its class. *)
Definition class_name (e : exn) : string :=
  match e with
  | RequestError _ => "RequestError"
  | KeyError _ => "KeyError"
  | ValueError _ => "ValueError"
  | IntegrityError _ => "IntegrityError"
  | OutOfRange _ => "OutOfRange"
  | ValidationError _ => "ValidationError"
  end.

Definition int32 (n : Z) : bool := (-2147483648 <=? n)%Z && (n <=? 2147483647)%Z.

Definition int64 (n : Z) : bool :=
  (-9223372036854775808 <=? n)%Z && (n <=? 9223372036854775807)%Z.

(** The deployment of [database.py]: the engine checks foreign keys and
    its [Integer] columns take 32 bits; the driver writes integers into the
    statement.  No literal of the examples calls for [to_ascii]. *)
Definition production : Env :=
  {| omdb := omdb_stub; foreign_keys := true;
     binds := fun _ => true; holds := int32;
     to_ascii := fun s => s; int_max_str_digits := 4300;
     str := class_name |}.

(** The deployment of [tests.py]: no foreign key is checked, and the
    driver binds, and the columns take, 64 bits. *)
Definition testing : Env :=
  {| omdb := omdb_stub; foreign_keys := false;
     binds := int64; holds := int64;
     to_ascii := fun s => s; int_max_str_digits := 4300;
     str := class_name |}.


(** ** Notions of the further properties *)




(** The items under ["data"] of a list response. *)
Definition items_of (response : Response) : list json :=
  match get "data" (content response) with
  | Some (JArr items) => items
  | _ => []
  end.

(** Every comment that names a movie names one the store holds. *)
Definition referential (db : DB) : Prop :=
  forall k c m,
    comments db !! k = Some c -> models.movie_id c = Some m ->
    is_Some (movies db !! m).


(** Requests served one after the other, each on the store the one before
    left. *)
Fixpoint serve (env : Env) (rqs : list request) (db : DB) : DB :=
  match rqs with
  | [] => db
  | rq :: rqs' => serve env rqs' (app env rq db).2
  end.

(** The store once a movie was added under the next key. *)
Definition with_movie (m : models.Movie) (db : DB) : DB :=
  {| movies := <[next_id (movies db) := m]> (movies db);
     comments := comments db |}.

(** * Properties *)

Ltac run :=
  unfold create_movie_try, read_movies_try, update_movie_try, delete_movie_try,
    create_comment_try, read_comments_try, update_comment_try,
    delete_comment_try;
  unfold try_except, bind, ret, raise, lift, query, first_movie, first_comment,
    add_movie, add_comment, save_movie, save_comment, delete_movie_row,
    delete_comment_row, getitem, bind_filter, fits; simpl.

(** ** Keys of new rows *)



(** ** Creating a movie *)




(** C2. When the provider reports the title as not found, [create_movie]
    answers 404 with status fail and leaves the store as it was. *)
Theorem create_movie_not_found (env : Env) (movie_title : string) (db : DB) :
  not_found (omdb env movie_title) ->
  create_movie env movie_title db =
    (JSONResponse 404 [("status", JStr "fail");
                       ("message", JStr "Movie not found");
                       ("data", JNull)],
     db).
Proof.
  intros (data & Hr & Hresp).
  unfold create_movie. run. rewrite Hr.
  rewrite bool_decide_eq_true_2 by done. reflexivity.
Qed.

Lemma create_movie_not_found_witness :
  not_found (omdb production "NonExistingMovie") /\
  (create_movie production "NonExistingMovie" one_movie).2 = one_movie.
Proof.
  assert (H : not_found (omdb production "NonExistingMovie")).
  { eexists. split; reflexivity. }
  split; [exact H|].
  rewrite (create_movie_not_found production "NonExistingMovie" one_movie H).
  reflexivity.
Defined.

(** ** Deleting a movie *)

(** C3. Deleting a movie that is in the store answers 200 and removes
    that movie and every comment whose [movie_id] is its id; every other
    movie and every other comment stays as it was. *)
Theorem delete_movie_cascades (env : Env) (movie_id : Z) (db : DB) :
  is_Some (movies db !! movie_id) ->
  let (response, db') := delete_movie env movie_id db in
  status_code response = 200 /\
  get "status" (content response) = Some (JStr "success") /\
  movies db' !! movie_id = None /\
  (forall k, k <> movie_id -> movies db' !! k = movies db !! k) /\
  (forall k c, comments db' !! k = Some c <->
               comments db !! k = Some c /\ models.movie_id c <> Some movie_id).
Proof.
  intros [movie Hm]. unfold delete_movie. run. rewrite Hm. simpl.
  split; [reflexivity|]. split; [reflexivity|].
  split; [apply lookup_delete_eq|].
  split; [intros k Hk; by apply lookup_delete_ne|].
  intros k c. rewrite map_lookup_filter_Some. reflexivity.
Qed.

Lemma delete_movie_cascades_witness :
  is_Some (movies one_movie !! 1) /\
  comments (delete_movie production 1 one_movie).2 !! 1 = None.
Proof.
  assert (H : is_Some (movies one_movie !! 1)) by (eexists; reflexivity).
  split; [exact H|].
  pose proof (delete_movie_cascades production 1 one_movie H) as T.
  destruct (delete_movie production 1 one_movie) as [response db'].
  destruct T as (_ & _ & _ & _ & T). simpl.
  destruct (comments db' !! 1) as [c|] eqn:E; [|reflexivity].
  apply T in E as [E1 E2]. vm_compute in E1. injection E1 as <-.
  exfalso. apply E2. reflexivity.
Defined.

(** ** Ids that are not there *)

Lemma not_found_condition_404 (env : Env) (rq : request) (db : DB) :
  not_found_condition env rq db ->
  target_binds env rq ->
  answers_not_found env rq db.
Proof.
  unfold answers_not_found. destruct rq; simpl; try contradiction.
  - intros (data & Hr & Hresp) _. unfold create_movie. run. rewrite Hr.
    rewrite bool_decide_eq_true_2 by done. eexists; repeat split.
  - intros H Hb. unfold update_movie. run. rewrite H, Hb. eexists; repeat split.
  - intros H Hb. unfold delete_movie. run. rewrite H, Hb. eexists; repeat split.
  - intros H Hb. unfold update_comment. run. rewrite H, Hb. eexists; repeat split.
  - intros H Hb. unfold delete_comment. run. rewrite H, Hb. eexists; repeat split.
Qed.

(** C4 does not hold as stated: on the engine of the tests, the delete of
    a movie under an id beyond 64 bits, which no row has, is answered 400. *)
Lemma missing_target_unbound :
  targets_missing (DeleteMovies 9223372036854775808) one_movie /\
  ~ answers_not_found testing (DeleteMovies 9223372036854775808) one_movie.
Proof.
  split; [reflexivity|].
  intros (response & E & Hcode & _).
  assert (L : (app testing (DeleteMovies 9223372036854775808) one_movie).1 =
              JSONResponse 400
                [("status", JStr "fail");
                 ("message", JStr (str testing (OutOfRange 9223372036854775808)))])
    by reflexivity.
  rewrite E in L. simpl in L. rewrite L in Hcode. discriminate.
Qed.

(** C4, amended. Updating or deleting a movie or a comment under an id
    no row has, and which the driver can bind, answers 404 with status fail
    and leaves both tables as they were. *)
Theorem missing_target_not_found (env : Env) (rq : request) (db : DB) :
  targets_missing rq db ->
  target_binds env rq ->
  answers_not_found env rq db.
Proof.
  intros H Hb. apply not_found_condition_404; [|exact Hb].
  destruct rq; simpl in *; solve [exact H | contradiction].
Qed.

Lemma missing_target_not_found_witness :
  (targets_missing (DeleteComments 5) one_movie /\
   target_binds testing (DeleteComments 5)) /\
  (app testing (DeleteComments 5) one_movie).2 = one_movie.
Proof.
  assert (H : targets_missing (DeleteComments 5) one_movie) by reflexivity.
  assert (Hb : target_binds testing (DeleteComments 5)) by reflexivity.
  split; [split; [exact H | exact Hb]|].
  destruct (missing_target_not_found testing (DeleteComments 5) one_movie H Hb)
    as (response & E & _).
  rewrite E. reflexivity.
Defined.

(** ** Updating a comment *)



(** ** Updating a movie *)

(** The column takes the year of the record, if it has one. *)
Lemma fits_year (env : Env) (year : option Z) :
  (forall y, year = Some y -> holds env y = true) -> fits env year = inr tt.
Proof.
  intros H. destruct year as [y|]; simpl; [|reflexivity].
  by rewrite (H y eq_refl).
Qed.


Lemma update_movie_refused (env : Env) (movie_id : Z)
    (movie_data : schemas.MovieCreate) (db : DB) (y : Z) :
  schemas.year movie_data = Some y ->
  holds env y = false ->
  update_movie env movie_id movie_data db =
    (JSONResponse 400
       [("status", JStr "fail");
        ("message",
         JStr (str env (match movies db !! movie_id with
                        | Some _ => OutOfRange y
                        | None => OutOfRange movie_id
                        end)))], db) \/
  (movies db !! movie_id = None /\ binds env movie_id = true /\
   update_movie env movie_id movie_data db =
     (JSONResponse 404 [("status", JStr "fail");
                        ("message", JStr "Movie not found")], db)).
Proof.
  intros Hy Hh. unfold update_movie. run.
  destruct (movies db !! movie_id) as [old|] eqn:E; simpl.
  - rewrite Hy, Hh. by left.
  - destruct (binds env movie_id); simpl; [by right | by left].
Qed.


Lemma update_movie_null (env : Env) (movie_id : Z)
    (movie_data : schemas.MovieCreate) (db : DB) :
  is_Some (movies db !! movie_id) ->
  (forall y, schemas.year movie_data = Some y -> holds env y = true) ->
  schemas.genre movie_data = None \/ schemas.year movie_data = None ->
  exists fields,
    (update_movie env movie_id movie_data db).1 =
      JSONResponse 400 [("status", JStr "fail");
                        ("message", JStr (str env (ValidationError fields)))].
Proof.
  intros [old H] Hfit Hnull. unfold update_movie. run. rewrite H. simpl.
  fold (fits env (schemas.year movie_data)). rewrite (fits_year _ _ Hfit). simpl.
  unfold from_orm, set_movie. simpl.
  destruct (schemas.genre movie_data), (schemas.year movie_data);
    simpl; try (destruct Hnull; discriminate); eexists; reflexivity.
Qed.

(** C5. A replacement record without a genre, sent for the movie in the
    store: the three fields are overwritten and the change is kept, but the
    response is the 400 failure of the [except] clause and holds no
    record. *)
Theorem update_movie_null_genre_fails :
  update_movie production 1
    {| schemas.title := "Interstellar"; schemas.genre := None;
       schemas.year := Some 2014 |} one_movie =
  (JSONResponse 400 [("status", JStr "fail");
                     ("message", JStr (str production (ValidationError ["genre"])))],
   {| movies := {[ 1 := {| models.title := "Interstellar";
                           models.genre := None;
                           models.year := Some 2014 |} ]};
      comments := comments one_movie |}).
Proof. reflexivity. Qed.

(** C10. There is an update of an existing movie, with a replacement
    record lacking genre or year, where the overwrite reaches the store, the
    row differs from what it was, and the caller still gets a 400 failure
    whose message is the text of the error raised while the response was
    built. *)
Theorem update_movie_commits_then_fails :
  exists (env : Env) (db : DB) (movie_id : Z)
         (movie_data : schemas.MovieCreate) (old : models.Movie),
    movies db !! movie_id = Some old /\
    (schemas.genre movie_data = None \/ schemas.year movie_data = None) /\
    let (response, db') := update_movie env movie_id movie_data db in
    status_code response = 400 /\
    get "status" (content response) = Some (JStr "fail") /\
    (exists e, from_orm movie_id (set_movie movie_data old) = inl e /\
               get "message" (content response) = Some (JStr (str env e))) /\
    db' = overwritten movie_id movie_data db /\
    movies db' !! movie_id <> Some old.
Proof.
  exists testing, one_movie, 1,
    {| schemas.title := "Inception"; schemas.genre := Some "Sci-Fi";
       schemas.year := None |}, inception.
  split; [reflexivity|]. split; [right; reflexivity|].
  simpl. split; [reflexivity|]. split; [reflexivity|].
  split; [eexists; split; reflexivity|].
  split; [reflexivity|]. vm_compute. discriminate.
Qed.

(** ** Creating a comment *)



(** Nor where the column does not take the [movie_id], foreign keys
    checked or not. *)
Lemma create_comment_unheld_refused :
  ~ inserts_comment testing
      {| schemas.comment := "Great movie!";
         schemas.movie_id := 9223372036854775808 |} one_movie.
Proof. intros [_ H]. vm_compute in H. discriminate. Qed.



(** ** The envelope *)

Lemma try_except_raise (env : Env) (body : M Response) (db db' : DB) (e : exn) :
  body db = (inl e, db') ->
  try_except env body db =
    (JSONResponse 400 [("status", JStr "fail"); ("message", JStr (str env e))],
     db').
Proof. intros H. unfold try_except. rewrite H. reflexivity. Qed.

Lemma app_framed (env : Env) (rq : request) :
  app env rq = try_except env (app_try env rq).
Proof. destruct rq; reflexivity. Qed.

(** C9 does not hold as stated: the response to a successful delete has
    no ["data"] key. *)
Lemma delete_response_without_data :
  ~ envelope (app production (DeleteMovies 1) one_movie).1.
Proof.
  intros [_ (d & H & _)]. vm_compute in H. discriminate.
Qed.

Ltac split_cases H :=
  repeat match type of H with
         | context [match ?x with _ => _ end] => destruct x eqn:?; simpl in H
         end.

Ltac envelope_literal :=
  unfold envelope_data_optional, has_status_and_message, code_and_status, dict,
    movie_item, comment_item;
  simpl;
  repeat match goal with
         | |- _ /\ _ => split
         | |- exists _, _ => eexists
         | |- forall _, _ => intro
         | H : Some _ = Some _ |- _ => injection H as <-
         | H : None = Some _ |- _ => discriminate H
         | |- is_data _ => exact I
         | |- _ = _ => reflexivity
         | |- _ \/ _ => (left; reflexivity) || (right; reflexivity)
         end.

Ltac data_key :=
  simpl; split;
  [ let H := fresh in intros [? H]; try discriminate H; auto
  | let H := fresh in
    intros H; try contradiction;
    first [ eexists; reflexivity | discriminate H | destruct H; discriminate ] ].

Lemma app_try_returns (env : Env) (rq : request) (db db' : DB) (r : Response) :
  app_try env rq db = (inr r, db') ->
  envelope_data_optional r /\
  (is_Some (get "data" (content r)) <-> data_expected rq r) /\
  ((status_code r = 200 /\ get "status" (content r) = Some (JStr "success")) \/
   (status_code r = 404 /\ get "status" (content r) = Some (JStr "fail"))).
Proof.
  destruct rq; simpl; run; intros H; split_cases H;
    try discriminate; injection H as <- <-;
    (split; [envelope_literal; auto | split; [data_key | simpl; auto]]).
Qed.

(** C9, amended. Every response of every route has a ["status"] that is
    ["success"] or ["fail"] and a string ["message"].  It has a ["data"]
    exactly when it is the 200 of a create, a list or an update, or the 404
    of [create_movie], and the ["data"] is then an object, an array or
    null.  The code is 200 with success, or 404 or 400 with fail.  A
    not-found condition, the id being one the driver can bind, gives 404
    with fail, and an exception raised under a handler's [try] gives 400
    with fail and the text of the exception as the message. *)
Theorem responses_carry_envelope (env : Env) (rq : request) (db : DB) :
  let response := (app env rq db).1 in
  envelope_data_optional response /\
  (is_Some (get "data" (content response)) <-> data_expected rq response) /\
  code_and_status response /\
  (not_found_condition env rq db -> target_binds env rq ->
     status_code response = 404 /\
     get "status" (content response) = Some (JStr "fail")) /\
  (forall e db', app_try env rq db = (inl e, db') ->
     app env rq db =
       (JSONResponse 400 [("status", JStr "fail");
                          ("message", JStr (str env e))], db')).
Proof.
  intros response. subst response. rewrite app_framed.
  split; [|split; [|split; [|split]]].
  - unfold try_except.
    destruct (app_try env rq db) as [[e|r] db'] eqn:E; simpl.
    + envelope_literal.
    + by apply app_try_returns in E as [E _].
  - unfold try_except.
    destruct (app_try env rq db) as [[e|r] db'] eqn:E; simpl.
    + destruct rq; data_key.
    + by apply app_try_returns in E as (_ & E & _).
  - unfold try_except.
    destruct (app_try env rq db) as [[e|r] db'] eqn:E; simpl.
    + right; right. split; reflexivity.
    + apply app_try_returns in E as (_ & _ & [E|E]); [left|right; left]; exact E.
  - intros H Hb. rewrite <- app_framed.
    destruct (not_found_condition_404 env rq db H Hb) as (r & -> & ? & ?); auto.
  - intros e db' E. by apply try_except_raise.
Qed.

Lemma responses_carry_envelope_witness :
  (not_found_condition testing (DeleteComments 5) one_movie /\
   target_binds testing (DeleteComments 5)) /\
  status_code (app testing (DeleteComments 5) one_movie).1 = 404.
Proof.
  assert (H : not_found_condition testing (DeleteComments 5) one_movie)
    by reflexivity.
  assert (Hb : target_binds testing (DeleteComments 5)) by reflexivity.
  split; [split; [exact H | exact Hb]|].
  destruct (responses_carry_envelope testing (DeleteComments 5) one_movie)
    as (_ & _ & _ & T & _).
  exact (proj1 (T H Hb)).
Defined.

(** ** LIKE and substrings *)

Section Like.

Local Open Scope list_scope.










End Like.

(** ** Listing movies *)

Lemma elem_of_select_movies (genre : option string) (year : option Z)
    (rows : list (Z * models.Movie)) (r : Z * models.Movie) :
  r ∈ select_movies genre year rows <->
  r ∈ rows /\
  (truthy_str genre = true ->
   ilike (models.genre r.2) ("%" +:+ default EmptyString genre +:+ "%") = true) /\
  (truthy_int year = true -> models.year r.2 = year).
Proof.
  unfold select_movies.
  destruct (truthy_str genre), (truthy_int year);
    rewrite !list_elem_of_In, ?filter_In, ?bool_decide_eq_true;
    intuition congruence.
Qed.



(** A list whose integer filter, if in force, is one the driver binds. *)
Lemma bind_filter_bound (env : Env) (value : option Z) (db : DB) :
  (forall n, value = Some n -> n <> 0 -> binds env n = true) ->
  bind_filter env (truthy_int value) value db = (inr tt, db).
Proof.
  intros H. unfold bind_filter. destruct value as [n|]; [|reflexivity].
  simpl. destruct (Z.eqb_spec n 0) as [->|Hn]; [reflexivity|].
  simpl. by rewrite (H n eq_refl Hn).
Qed.

Lemma read_movies_bound (env : Env) (genre : option string) (year : option Z)
    (db : DB) :
  (forall y, year = Some y -> y <> 0 -> binds env y = true) ->
  read_movies env genre year db =
    (JSONResponse 200
       [("status", JStr "success");
        ("message", JStr "Get movies list successfully!");
        ("data", JArr (map movie_item
                         (select_movies genre year (map_to_list (movies db)))))],
     db).
Proof.
  intros H. unfold read_movies, read_movies_try, try_except, bind.
  rewrite (bind_filter_bound env year db H). reflexivity.
Qed.

Lemma read_movies_unbound (env : Env) (genre : option string) (y : Z) (db : DB) :
  y <> 0 -> binds env y = false ->
  read_movies env genre (Some y) db =
    (JSONResponse 400 [("status", JStr "fail");
                       ("message", JStr (str env (OutOfRange y)))], db).
Proof.
  intros Hy Hb. unfold read_movies. run.
  destruct (Z.eqb_spec y 0); [contradiction|]. simpl. by rewrite Hb.
Qed.


(** Nor does it on a wildcard: [_] in the genre filter finds a genre that
    holds no underscore. *)
Lemma read_movies_underscore_matches :
  ~ lists_matching (Some "S_i") None one_movie
      (read_movies testing (Some "S_i") None one_movie).1.
Proof.
  intros (rows & E & _ & H).
  assert (L : (read_movies testing (Some "S_i") None one_movie).1 =
              JSONResponse 200
                [("status", JStr "success");
                 ("message", JStr "Get movies list successfully!");
                 ("data", JArr [movie_item (1, inception)])]) by reflexivity.
  rewrite L in E. injection E as E.
  destruct rows as [|[k m] [|? ?]]; simpl in E; try discriminate.
  injection E as _ _ Hg _.
  destruct (H k m) as [Hin _].
  destruct Hin as (_ & (v & Hv & before & after & Hc) & _); [by left|].
  rewrite Hv in Hg. injection Hg as <-.
  assert (L' : lower "Sci-Fi" = chars "sci-fi") by reflexivity.
  assert (L'' : lower "S_i" = chars "s_i") by reflexivity.
  rewrite L', L'' in Hc.
  destruct before as [|? [|? [|? [|? [|? [|? [|? ?]]]]]]]; discriminate.
Qed.



(** * Further properties *)

(** ** Listing comments *)

Lemma elem_of_select_comments (comment : option string) (movie_id : option Z)
    (rows : list (Z * models.Comment)) (r : Z * models.Comment) :
  r ∈ select_comments comment movie_id rows <->
  r ∈ rows /\
  (truthy_str comment = true ->
   ilike (models.comment r.2) ("%" +:+ default EmptyString comment +:+ "%") = true) /\
  (truthy_int movie_id = true -> models.movie_id r.2 = movie_id).
Proof.
  unfold select_comments.
  destruct (truthy_str comment), (truthy_int movie_id);
    rewrite !list_elem_of_In, ?filter_In, ?bool_decide_eq_true;
    intuition congruence.
Qed.


Lemma read_comments_bound (env : Env) (comment : option string)
    (movie_id : option Z) (db : DB) :
  (forall i, movie_id = Some i -> i <> 0 -> binds env i = true) ->
  read_comments env comment movie_id db =
    (JSONResponse 200
       [("status", JStr "success");
        ("message", JStr "Get comments list successfully!");
        ("data", JArr (map comment_item
                         (select_comments comment movie_id
                            (map_to_list (comments db)))))],
     db).
Proof.
  intros H. unfold read_comments, read_comments_try, try_except, bind.
  rewrite (bind_filter_bound env movie_id db H). reflexivity.
Qed.



(** ** Deleting a comment *)

(** X2. Deleting a comment that is in the store answers 200 with the
    success message and no data, removes that comment, and leaves every
    other comment and every movie as they were. *)
Theorem delete_comment_removes (env : Env) (comment_id : Z) (db : DB) :
  is_Some (comments db !! comment_id) ->
  let (response, db') := delete_comment env comment_id db in
  response =
    JSONResponse 200 [("status", JStr "success");
                      ("message", JStr "Delete comment detail successfully !!")] /\
  comments db' !! comment_id = None /\
  (forall k, k <> comment_id -> comments db' !! k = comments db !! k) /\
  movies db' = movies db.
Proof.
  intros [c H]. unfold delete_comment. run. rewrite H. simpl.
  split; [reflexivity|]. split; [apply lookup_delete_eq|].
  split; [|reflexivity]. intros k Hk. by apply lookup_delete_ne.
Qed.

Lemma delete_comment_removes_witness :
  is_Some (comments one_movie !! 1) /\
  movies (delete_comment testing 1 one_movie).2 = movies one_movie.
Proof.
  assert (H : is_Some (comments one_movie !! 1)) by (eexists; reflexivity).
  split; [exact H|].
  pose proof (delete_comment_removes testing 1 one_movie H) as T.
  destruct (delete_comment testing 1 one_movie) as [response db'].
  exact (proj2 (proj2 (proj2 T))).
Defined.

(** ** What a create writes *)


(** The three ways [create_movie] ends. *)
Lemma create_movie_cases (env : Env) (movie_title : string) (db : DB) :
  (exists t g y,
     found env (omdb env movie_title) t g y /\ holds env y = true /\
     create_movie env movie_title db =
       (JSONResponse 200 [("status", JStr "success");
                          ("message", JStr "Added movie successfully !!");
                          ("data", JObj [("id", JInt (next_id (movies db)))])],
        with_movie {| models.title := t; models.genre := Some g;
                      models.year := Some y |} db)) \/
  (not_found (omdb env movie_title) /\
   create_movie env movie_title db =
     (JSONResponse 404 [("status", JStr "fail");
                        ("message", JStr "Movie not found");
                        ("data", JNull)], db)) \/
  ((forall t g y, found env (omdb env movie_title) t g y -> holds env y = false) /\
   ~ not_found (omdb env movie_title) /\
   exists e,
     create_movie env movie_title db =
       (JSONResponse 400 [("status", JStr "fail");
                          ("message", JStr (str env e))], db)).
Proof.
  unfold create_movie. run.
  destruct (omdb env movie_title) as [e|data] eqn:E; simpl.
  { right; right. split; [|split; [|by eexists]].
    - intros t g y (data & literal & [=] & _).
    - intros (data & [=] & _). }
  case_bool_decide as Hresp; simpl.
  { right; left. split; [by exists data | reflexivity]. }
  assert (Hnf : ~ not_found (Payload data)).
  { intros (data' & [= <-] & H). contradiction. }
  destruct (data !! "Title") as [t|] eqn:Ht; simpl;
    [|right; right; split; [|split; [exact Hnf | by eexists]];
      intros ? ? ? (d & l & [= <-] & _ & H & _); congruence].
  destruct (data !! "Genre") as [g|] eqn:Hg; simpl;
    [|right; right; split; [|split; [exact Hnf | by eexists]];
      intros ? ? ? (d & l & [= <-] & _ & _ & H & _); congruence].
  destruct (data !! "Year") as [literal|] eqn:Hy; simpl;
    [|right; right; split; [|split; [exact Hnf | by eexists]];
      intros ? ? ? (d & l & [= <-] & _ & _ & _ & H & _); congruence].
  destruct (int env literal) as [e|y] eqn:Hint; simpl;
    [right; right; split; [|split; [exact Hnf | by eexists]];
     intros ? ? ? (d & l & [= <-] & _ & _ & _ & H & H'); congruence|].
  destruct (holds env y) eqn:Hh; simpl.
  - left. exists t, g, y. split; [|split; [exact Hh | reflexivity]].
    exists data, literal. by repeat split.
  - right; right. split; [|split; [exact Hnf | by eexists]].
    intros ? ? ? (d & l & [= <-] & _ & _ & _ & H & H'). congruence.
Qed.



(** ** Failures and the store *)

Ltac goal_cases :=
  repeat match goal with
         | |- context [match ?x with _ => _ end] =>
             lazymatch x with
             | context [match _ with _ => _ end] => fail
             | _ => destruct x eqn:?; simpl
             end
         end.

(** X5. A 404 from any route leaves the store as it was, and so does a
    400 from any route but the update of a movie. *)
Theorem failure_writes_nothing (env : Env) (rq : request) (db : DB) :
  let (response, db') := app env rq db in
  (status_code response = 404 -> db' = db) /\
  (status_code response = 400 ->
   (forall movie_id movie_data, rq <> PutMovies movie_id movie_data) ->
   db' = db).
Proof.
  destruct rq; simpl.
  - destruct (create_movie_cases env movie_title db)
      as [(t & g & y & _ & _ & ->) | [(_ & ->) | (_ & _ & e & ->)]];
      simpl; split; intros; done.
  - unfold read_movies. run. goal_cases; split; intros; done.
  - unfold update_movie. run. unfold from_orm. goal_cases;
      (split; [intros; done|]); try done;
      intros _ H; by destruct (H movie_id movie_data).
  - unfold delete_movie. run. goal_cases; split; intros; done.
  - unfold create_comment. run. goal_cases; split; intros; done.
  - unfold read_comments. run. goal_cases; split; intros; done.
  - unfold update_comment. run. goal_cases; split; intros; done.
  - unfold delete_comment. run. goal_cases; split; intros; done.
Qed.

(** ** References from comments to movies *)

Lemma is_Some_insert {A} (t : gmap Z A) (i k : Z) (x : A) :
  is_Some (t !! k) -> is_Some (<[i := x]> t !! k).
Proof.
  intros H. destruct (decide (i = k)) as [->|Hne].
  - rewrite lookup_insert_eq. by eexists.
  - by rewrite lookup_insert_ne.
Qed.

Lemma referential_kept_step (env : Env) (rq : request) (db : DB) :
  foreign_keys env = true \/ (forall comment, rq <> PostComments comment) ->
  referential db ->
  referential (app env rq db).2.
Proof.
  intros Hfk Href. destruct rq; simpl.
  - destruct (create_movie_cases env movie_title db)
      as [(t & g & y & _ & _ & ->) | [(_ & ->) | (_ & _ & e & ->)]];
      simpl; try exact Href.
    intros k c m Hk Hm. simpl in *. apply is_Some_insert. eauto.
  - unfold read_movies. run. goal_cases; exact Href.
  - unfold update_movie. run. unfold from_orm. goal_cases; try exact Href;
      intros ? ? ? Hk Hm; simpl in *; apply is_Some_insert; eauto.
  - unfold delete_movie. run.
    destruct (movies db !! movie_id) as [old|] eqn:E; simpl;
      [|goal_cases; exact Href].
    intros k c m Hk Hm. simpl in *.
    apply map_lookup_filter_Some in Hk as [Hk Hne]. simpl in Hne.
    rewrite lookup_delete_ne by congruence. eauto.
  - destruct Hfk as [Hfk | Hfk]; [|by destruct (Hfk comment)].
    unfold create_comment. run. rewrite Hfk. unfold references. simpl.
    destruct (holds env (schemas.movie_id comment)); simpl; [|exact Href].
    case_bool_decide as Hm; simpl; [|exact Href].
    intros k c m Hk Hc. simpl in *.
    destruct (decide (next_id (comments db) = k)) as [<-|Hne].
    + rewrite lookup_insert_eq in Hk. injection Hk as <-.
      simpl in Hc. by injection Hc as <-.
    + rewrite lookup_insert_ne in Hk by done. eauto.
  - unfold read_comments. run. goal_cases; exact Href.
  - unfold update_comment. run.
    destruct (comments db !! comment_id) as [old|] eqn:E; simpl;
      [|goal_cases; exact Href].
    intros k c m Hk Hc. simpl in *.
    destruct (decide (comment_id = k)) as [<-|Hne].
    + rewrite lookup_insert_eq in Hk. injection Hk as <-. simpl in Hc. eauto.
    + rewrite lookup_insert_ne in Hk by done. eauto.
  - unfold delete_comment. run.
    destruct (comments db !! comment_id) as [old|] eqn:E; simpl;
      [|goal_cases; exact Href].
    intros k c m Hk Hc. simpl in *.
    apply lookup_delete_Some in Hk as [_ Hk]. eauto.
Qed.

(** X6. If every comment that names a movie names one the store holds,
    the same is true after any request, on an engine that checks foreign
    keys; on any engine it is true after any request but the creation of a
    comment. *)
Theorem referential_kept (env : Env) (rq : request) (db : DB) :
  foreign_keys env = true \/ (forall comment, rq <> PostComments comment) ->
  referential db ->
  referential (app env rq db).2.
Proof. apply referential_kept_step. Qed.

Lemma referential_kept_witness :
  (foreign_keys production = true \/
   (forall comment, DeleteMovies 1 <> PostComments comment)) /\
  referential one_movie /\
  referential (app production (DeleteMovies 1) one_movie).2.
Proof.
  assert (H1 : foreign_keys production = true \/
               (forall comment, DeleteMovies 1 <> PostComments comment))
    by (left; reflexivity).
  assert (H2 : referential one_movie).
  { intros k c m Hk Hm. simpl in Hk.
    apply lookup_singleton_Some in Hk as [<- <-].
    injection Hm as <-. by eexists. }
  split; [exact H1|]. split; [exact H2|].
  exact (referential_kept production (DeleteMovies 1) one_movie H1 H2).
Defined.

(** Without the check the creation of a comment does break it. *)
Example dangling_comment_unchecked :
  ~ referential
      (create_comment testing
         {| schemas.comment := "Great movie!"; schemas.movie_id := 7 |}
         one_movie).2.
Proof.
  intros H.
  destruct (H 2 {| models.movie_id := Some 7;
                   models.comment := Some "Great movie!" |} 7)
    as [m Hm]; try reflexivity.
  vm_compute in Hm. discriminate.
Qed.

(** ** Creating, then listing *)

Lemma movie_item_inj (r r' : Z * models.Movie) :
  movie_item r = movie_item r' -> r = r'.
Proof.
  destruct r as [k [t g y]], r' as [k' [t' g' y']]. unfold movie_item. simpl.
  intros H. injection H as -> -> Hg Hy.
  destruct g, g', y, y'; simpl in *; congruence.
Qed.

Lemma comment_item_inj (r r' : Z * models.Comment) :
  comment_item r = comment_item r' -> r = r'.
Proof.
  destruct r as [k [m c]], r' as [k' [m' c']]. unfold comment_item. simpl.
  intros H. injection H as -> Hc Hm.
  destruct m, m', c, c'; simpl in *; congruence.
Qed.

Lemma elem_of_movie_items (rows : list (Z * models.Movie)) (r : Z * models.Movie) :
  movie_item r ∈ map movie_item rows <-> r ∈ rows.
Proof.
  rewrite !list_elem_of_In, in_map_iff. split.
  - intros (r' & E & H). by apply movie_item_inj in E as <-.
  - intros H. by exists r.
Qed.

Lemma elem_of_comment_items (rows : list (Z * models.Comment))
    (r : Z * models.Comment) :
  comment_item r ∈ map comment_item rows <-> r ∈ rows.
Proof.
  rewrite !list_elem_of_In, in_map_iff. split.
  - intros (r' & E & H). by apply comment_item_inj in E as <-.
  - intros H. by exists r.
Qed.








(** ** Deleting, then listing or deleting again *)

Lemma delete_movie_store (env : Env) (movie_id : Z) (db : DB) :
  is_Some (movies db !! movie_id) ->
  (delete_movie env movie_id db).2 =
    {| movies := delete movie_id (movies db);
       comments := filter (fun kc => models.movie_id kc.2 <> Some movie_id)
                          (comments db) |}.
Proof. intros [m H]. unfold delete_movie. run. by rewrite H. Qed.

Lemma read_comments_unbound (env : Env) (comment : option string) (i : Z)
    (db : DB) :
  i <> 0 -> binds env i = false ->
  read_comments env comment (Some i) db =
    (JSONResponse 400 [("status", JStr "fail");
                       ("message", JStr (str env (OutOfRange i)))], db).
Proof.
  intros Hi Hb. unfold read_comments. run.
  destruct (Z.eqb_spec i 0); [contradiction|]. simpl. by rewrite Hb.
Qed.

(** The items of a list are those of the rows selected, or none when the
    request failed. *)
Lemma read_movies_items (env : Env) (genre : option string) (year : option Z)
    (db : DB) :
  items_of (read_movies env genre year db).1 =
    map movie_item (select_movies genre year (map_to_list (movies db))) \/
  items_of (read_movies env genre year db).1 = [].
Proof.
  destruct year as [y|];
    [|left; rewrite read_movies_bound; [done | intros ? [=]]].
  destruct (decide (y = 0)) as [->|Hy];
    [left; rewrite read_movies_bound; [done | intros ? [= <-] ?; done]|].
  destruct (binds env y) eqn:Hb.
  - left. rewrite read_movies_bound; [done|]. by intros ? [= <-] _.
  - right. by rewrite read_movies_unbound.
Qed.

Lemma read_comments_items (env : Env) (comment : option string)
    (movie_id : option Z) (db : DB) :
  items_of (read_comments env comment movie_id db).1 =
    map comment_item (select_comments comment movie_id (map_to_list (comments db))) \/
  items_of (read_comments env comment movie_id db).1 = [].
Proof.
  destruct movie_id as [i|];
    [|left; rewrite read_comments_bound; [done | intros ? [=]]].
  destruct (decide (i = 0)) as [->|Hi];
    [left; rewrite read_comments_bound; [done | intros ? [= <-] ?; done]|].
  destruct (binds env i) eqn:Hb.
  - left. rewrite read_comments_bound; [done|]. by intros ? [= <-] _.
  - right. by rewrite read_comments_unbound.
Qed.

Lemma elem_of_read_movies (env : Env) (genre : option string) (year : option Z)
    (db : DB) (r : Z * models.Movie) :
  movie_item r ∈ items_of (read_movies env genre year db).1 ->
  r ∈ select_movies genre year (map_to_list (movies db)).
Proof.
  destruct (read_movies_items env genre year db) as [-> | ->].
  - apply elem_of_movie_items.
  - intros H. by apply elem_of_nil in H.
Qed.

Lemma elem_of_read_comments (env : Env) (comment : option string)
    (movie_id : option Z) (db : DB) (r : Z * models.Comment) :
  comment_item r ∈ items_of (read_comments env comment movie_id db).1 ->
  r ∈ select_comments comment movie_id (map_to_list (comments db)).
Proof.
  destruct (read_comments_items env comment movie_id db) as [-> | ->].
  - apply elem_of_comment_items.
  - intros H. by apply elem_of_nil in H.
Qed.

(** X9. Once a movie is deleted, no list of movies shows an item under
    its id and no list of comments shows a comment with its [movie_id],
    whatever the filters. *)
Theorem deleted_movie_not_listed (env env' : Env) (movie_id : Z) (db : DB)
    (genre comment : option string) (year mid : option Z) :
  is_Some (movies db !! movie_id) ->
  let db' := (delete_movie env movie_id db).2 in
  (forall m, movie_item (movie_id, m)
             ∉ items_of (read_movies env' genre year db').1) /\
  (forall k c, models.movie_id c = Some movie_id ->
               comment_item (k, c)
               ∉ items_of (read_comments env' comment mid db').1).
Proof.
  intros H db'. subst db'. rewrite (delete_movie_store env movie_id db H).
  split.
  - intros m Hin. apply elem_of_read_movies in Hin.
    apply elem_of_select_movies in Hin as [Hin _].
    apply elem_of_map_to_list in Hin. simpl in Hin.
    rewrite lookup_delete_eq in Hin. discriminate.
  - intros k c Hc Hin. apply elem_of_read_comments in Hin.
    apply elem_of_select_comments in Hin as [Hin _].
    apply elem_of_map_to_list in Hin. simpl in Hin.
    apply map_lookup_filter_Some in Hin as [_ Hne]. by apply Hne.
Qed.

Lemma deleted_movie_not_listed_witness :
  is_Some (movies one_movie !! 1) /\
  movie_item (1, inception)
  ∉ items_of (read_movies testing None None
                (delete_movie production 1 one_movie).2).1.
Proof.
  assert (H : is_Some (movies one_movie !! 1)) by (eexists; reflexivity).
  split; [exact H|].
  exact (proj1 (deleted_movie_not_listed production testing 1 one_movie
                  None None None None H) inception).
Defined.

(** X10. A delete that answered 200, under an id the driver can bind,
    sent again, answers 404 and changes nothing. *)
Theorem delete_twice (env : Env) (rq : request) (db : DB) :
  (exists i, rq = DeleteMovies i \/ rq = DeleteComments i) ->
  target_binds env rq ->
  status_code (app env rq db).1 = 200 ->
  let db' := (app env rq db).2 in
  status_code (app env rq db').1 = 404 /\ (app env rq db').2 = db'.
Proof.
  intros (i & [-> | ->]); simpl; intros Hb.
  - unfold delete_movie. run.
    destruct (movies db !! i) eqn:E; simpl;
      [|rewrite Hb; discriminate].
    intros _. rewrite lookup_delete_eq, Hb. done.
  - unfold delete_comment. run.
    destruct (comments db !! i) eqn:E; simpl;
      [|rewrite Hb; discriminate].
    intros _. rewrite lookup_delete_eq, Hb. done.
Qed.

Lemma delete_twice_witness :
  ((exists i, DeleteComments 1 = DeleteMovies i \/
              DeleteComments 1 = DeleteComments i) /\
   target_binds testing (DeleteComments 1) /\
   status_code (app testing (DeleteComments 1) one_movie).1 = 200) /\
  status_code (app testing (DeleteComments 1)
                 (app testing (DeleteComments 1) one_movie).2).1 = 404.
Proof.
  assert (H1 : exists i, DeleteComments 1 = DeleteMovies i \/
                         DeleteComments 1 = DeleteComments i)
    by (exists 1; right; reflexivity).
  assert (Hb : target_binds testing (DeleteComments 1)) by reflexivity.
  assert (H2 : status_code (app testing (DeleteComments 1) one_movie).1 = 200)
    by reflexivity.
  split; [split; [exact H1 | split; [exact Hb | exact H2]]|].
  exact (proj1 (delete_twice testing (DeleteComments 1) one_movie H1 Hb H2)).
Defined.

(** ** Updating a movie with a full record *)



(** ** What a list may show *)

(** X12. Whatever the filters, an item of the movie list is a row of the
    store; under a year filter that is not zero its year is that year, and
    under a genre filter that is not empty its genre is not null. *)
Theorem read_movies_sound (env : Env) (genre : option string)
    (year : option Z) (db : DB) (k : Z) (m : models.Movie) :
  movie_item (k, m) ∈ items_of (read_movies env genre year db).1 ->
  movies db !! k = Some m /\
  (forall y, year = Some y -> y <> 0 -> models.year m = Some y) /\
  (forall g, genre = Some g -> g <> EmptyString -> is_Some (models.genre m)).
Proof.
  intros Hin. apply elem_of_read_movies in Hin.
  apply elem_of_select_movies in Hin as (Hin & Hg & Hy).
  apply elem_of_map_to_list in Hin. simpl in *.
  split; [exact Hin|]. split.
  - intros y -> Hne. apply Hy. simpl.
    destruct (Z.eqb_spec y 0); [contradiction | reflexivity].
  - intros g -> Hne.
    assert (Ht : truthy_str (Some g) = true).
    { simpl. destruct (String.eqb_spec g EmptyString); [contradiction | reflexivity]. }
    specialize (Hg Ht). unfold ilike in Hg.
    destruct (models.genre m); [by eexists | discriminate].
Qed.

Lemma read_movies_sound_witness :
  movie_item (1, inception)
  ∈ items_of (read_movies testing (Some "%") (Some 2010) one_movie).1 /\
  movies one_movie !! 1 = Some inception.
Proof.
  assert (H : movie_item (1, inception)
              ∈ items_of (read_movies testing (Some "%") (Some 2010) one_movie).1)
    by (vm_compute; left).
  split; [exact H|].
  exact (proj1 (read_movies_sound testing _ _ one_movie 1 inception H)).
Defined.

Lemma NoDup_fst_List_filter {A} (f : Z * A -> bool) (l : list (Z * A)) :
  NoDup (map fst l) -> NoDup (map fst (List.filter f l)).
Proof.
  induction l as [|x l IH]; simpl; [done|].
  intros H. apply NoDup_cons in H as [Hx Hl].
  destruct (f x); simpl; [|auto].
  apply NoDup_cons. split; [|auto].
  intros Hin. apply Hx.
  apply list_elem_of_In, in_map_iff in Hin as (r & E & Hr).
  apply filter_In in Hr as [Hr _].
  apply list_elem_of_In, in_map_iff. by exists r.
Qed.

Lemma NoDup_keys {A} (t : gmap Z A) : NoDup (map fst (map_to_list t)).
Proof.
  pose proof (NoDup_fst_map_to_list t) as H.
  assert (E : (map_to_list t).*1 = map fst (map_to_list t)).
  { induction (map_to_list t) as [|x l IH]; [done | simpl; f_equal; exact IH]. }
  by rewrite <- E.
Qed.

(** X13. Whatever the filters, no two items of a movie list and no two
    items of a comment list come from rows with the same id. *)
Theorem listed_ids_distinct (env : Env) (genre comment : option string)
    (year movie_id : option Z) (db : DB) :
  (exists rows, items_of (read_movies env genre year db).1 = map movie_item rows /\
                NoDup (map fst rows)) /\
  (exists rows, items_of (read_comments env comment movie_id db).1
                = map comment_item rows /\
                NoDup (map fst rows)).
Proof.
  split.
  - destruct (read_movies_items env genre year db) as [-> | ->];
      [|exists []; split; [reflexivity | constructor]].
    exists (select_movies genre year (map_to_list (movies db))).
    split; [reflexivity|]. unfold select_movies.
    destruct (truthy_str genre), (truthy_int year);
      repeat apply NoDup_fst_List_filter; apply NoDup_keys.
  - destruct (read_comments_items env comment movie_id db) as [-> | ->];
      [|exists []; split; [reflexivity | constructor]].
    exists (select_comments comment movie_id (map_to_list (comments db))).
    split; [reflexivity|]. unfold select_comments.
    destruct (truthy_str comment), (truthy_int movie_id);
      repeat apply NoDup_fst_List_filter; apply NoDup_keys.
Qed.

(** ** Creating the same movie twice *)



(** ** How an update of a movie ends *)


(** ** Stores the service can reach *)

(** X16. On an engine that checks foreign keys, a store in which every
    comment that names a movie names one that is there stays so through any
    sequence of requests; so does the store reached from the empty one. *)
Theorem served_store_referential (env : Env) (rqs : list request) (db : DB) :
  foreign_keys env = true ->
  referential db ->
  referential (serve env rqs db).
Proof.
  intros Hfk. revert db.
  induction rqs as [|rq rqs IH]; intros db Href; simpl; [exact Href|].
  apply IH. apply referential_kept_step; auto.
Qed.

Lemma served_store_referential_witness :
  (foreign_keys production = true /\ referential empty_db) /\
  referential
    (serve production
       [PostMovies "Inception";
        PostComments {| schemas.comment := "Great movie!"; schemas.movie_id := 1 |};
        PostComments {| schemas.comment := "Great movie!"; schemas.movie_id := 7 |};
        DeleteMovies 1]
       empty_db).
Proof.
  assert (H1 : foreign_keys production = true) by reflexivity.
  assert (H2 : referential empty_db).
  { intros k c m Hk. simpl in Hk. rewrite lookup_empty in Hk. discriminate. }
  split; [split; [exact H1 | exact H2]|].
  exact (served_store_referential production _ empty_db H1 H2).
Defined.

(** ** Worked examples *)

Example int_year : int testing "2010" = inr 2010.
Proof. reflexivity. Qed.

Example int_blanks_and_sign : int testing " -1_0 " = inr (-10).
Proof. reflexivity. Qed.

Example int_leading_zeros : int testing "007" = inr 7.
Proof. reflexivity. Qed.

Example int_double_underscore : int testing "1__0" = inl (ValueError "1__0").
Proof. reflexivity. Qed.

Example int_year_range : int testing "2011-2019" = inl (ValueError "2011-2019").
Proof. reflexivity. Qed.

(** A file separator is no blank to [int]. *)
Example int_file_separator :
  int testing (String (ascii_of_nat 28) "2010")
  = inl (ValueError (String (ascii_of_nat 28) "2010")).
Proof. reflexivity. Qed.

(** A literal that is not ASCII is read through [to_ascii]. *)
Example int_not_ascii :
  int {| omdb := omdb_stub; foreign_keys := false;
         binds := int64; holds := int64;
         to_ascii := fun _ => "2010"; int_max_str_digits := 4300;
         str := class_name |}
      (String (ascii_of_nat 239) (String (ascii_of_nat 188)
         (String (ascii_of_nat 146) EmptyString)))
  = inr 2010.
Proof. reflexivity. Qed.

Example int_empty : int testing EmptyString = inl (ValueError EmptyString).
Proof. reflexivity. Qed.

Example ilike_ignores_case : ilike (Some "Action, Sci-Fi") "%sci-fi%" = true.
Proof. reflexivity. Qed.

Example ilike_other_genre : ilike (Some "Action, Sci-Fi") "%drama%" = false.
Proof. reflexivity. Qed.

Example ilike_null : ilike None "%%" = false.
Proof. reflexivity. Qed.

(** A payload without ["Title"] is an unexpected failure, and nothing is
    written. *)
Example create_movie_key_error :
  create_movie {| omdb := fun _ => Payload {[ "Response" := "True" ]};
                  foreign_keys := true;
                  binds := int64; holds := int64;
                  to_ascii := fun s => s; int_max_str_digits := 4300;
                  str := class_name |}
    "Inception" empty_db =
  (JSONResponse 400 [("status", JStr "fail"); ("message", JStr "KeyError")],
   empty_db).
Proof. reflexivity. Qed.

(** A year the provider gives as a range is not one [int] reads: the
    request fails and nothing is written. *)
Example create_movie_year_range :
  create_movie {| omdb := fun _ => Payload (list_to_map
                                     [("Title", "Breaking Bad");
                                      ("Year", "2008-2013");
                                      ("Genre", "Crime, Drama, Thriller");
                                      ("Response", "True")]);
                  foreign_keys := true;
                  binds := int64; holds := int64;
                  to_ascii := fun s => s; int_max_str_digits := 4300;
                  str := class_name |}
    "Breaking Bad" empty_db =
  (JSONResponse 400 [("status", JStr "fail"); ("message", JStr "ValueError")],
   empty_db).
Proof. reflexivity. Qed.

(** An update with a year beyond the column fails and leaves the row. *)
Example update_movie_year_not_held :
  update_movie testing 1
    {| schemas.title := "Interstellar"; schemas.genre := Some "Sci-Fi";
       schemas.year := Some 9223372036854775808 |} one_movie =
  (JSONResponse 400 [("status", JStr "fail"); ("message", JStr "OutOfRange")],
   one_movie).
Proof. reflexivity. Qed.

(** A year filter the driver cannot bind fails the list. *)
Example read_movies_year_unbound :
  read_movies testing None (Some 9223372036854775808) one_movie =
  (JSONResponse 400 [("status", JStr "fail"); ("message", JStr "OutOfRange")],
   one_movie).
Proof. reflexivity. Qed.

(** [_] stands for one character, of one byte or more. *)
Example like_underscore_character :
  like (chars "_a") (ascii_of_nat 195 :: ascii_of_nat 169 :: chars "a") = true.
Proof. reflexivity. Qed.

(** The comment of the tests, on the movie of the store. *)
Example create_comment_on_movie :
  (create_comment production
     {| schemas.comment := "Great movie!"; schemas.movie_id := 1 |}
     one_movie).1 =
  JSONResponse 200 [("status", JStr "success");
                    ("message", JStr "Added movie comment successfully !!");
                    ("data", JObj [("id", JInt 2)])].
Proof. reflexivity. Qed.

(** The update of the tests. *)
Example update_movie_interstellar :
  (update_movie testing 1
     {| schemas.title := "Interstellar"; schemas.genre := Some "Sci-Fi";
        schemas.year := Some 2014 |} one_movie).1 =
  JSONResponse 200 [("status", JStr "success");
                    ("message", JStr "Update movie detail successfully!");
                    ("data", JObj [("id", JInt 1);
                                   ("title", JStr "Interstellar");
                                   ("genre", JStr "Sci-Fi");
                                   ("year", JInt 2014)])].
Proof. reflexivity. Qed.
